(** * template_helpers.py: status classification and dashboard view-model

    A shallow embedding of [src/template_helpers.py]: the proxy-aware base
    URL rule ([get_base_url_from_request]), the account status decision
    ([_get_account_status]) and the assembly of the admin page data
    ([prepare_admin_template_data]).

    Python values are modelled as follows.
    - [str] is [string]; a non-ASCII literal is the sequence of its UTF-8
      bytes.  The only character-level operation of the module is
      [rstrip("/")], and "/" is a single byte that never occurs inside a
      multi-byte sequence, so nothing depends on the encoding.
    - [int] is [Z]; [bool] is [bool]; [None]-or-value is [option].
    - the request headers and a log record are finite maps with string keys
      ([gmap string string]); the header names are the lower-case ones the
      framework looks up.
    - the account pool, a dict iterated in insertion order, is an
      association list. *)

From Stdlib Require Import ZArith String Ascii List Lia.
From Stdlib Require Import DecimalString DecimalPos DecimalZ.
From stdpp Require Import base option gmap strings.

Open Scope string_scope.

(** ** Python primitives used by the module *)

Module Py.

(** The double-quote character. *)
Definition dquote : ascii := "034"%char.

(** The HTML literals of the source contain double quotes.  They are
    written below with a backquote in the place of each double quote (the
    source has no backquote anywhere) and [lit] puts the double quotes
    back, so that a literal can be compared with the source character by
    character. *)
Fixpoint lit (s : string) : string :=
  match s with
  | EmptyString => EmptyString
  | String c s' => String (if Ascii.eqb c "`" then dquote else c) (lit s')
  end.

(** [c in chars] for a character and a string. *)
Fixpoint char_in (c : ascii) (chars : string) : bool :=
  match chars with
  | EmptyString => false
  | String d chars' => Ascii.eqb c d || char_in c chars'
  end.

(** The characters of [t] all belong to [chars]. *)
Fixpoint all_in (chars t : string) : bool :=
  match t with
  | EmptyString => true
  | String c t' => char_in c chars && all_in chars t'
  end.

(** [s.rstrip(chars)]: drop the longest suffix made of characters of
    [chars]. *)
Fixpoint rstrip (chars : string) (s : string) : string :=
  match s with
  | EmptyString => EmptyString
  | String c s' =>
      match rstrip chars s' with
      | EmptyString => if char_in c chars then EmptyString else String c EmptyString
      | String d r => String c (String d r)
      end
  end.

(** The last character of a string, if any: [s.endswith(c)] holds exactly
    when it is [c]. *)
Fixpoint last_char (s : string) : option ascii :=
  match s with
  | EmptyString => None
  | String c EmptyString => Some c
  | String _ s' => last_char s'
  end.

(** [bool(s)] for a string: the empty string is false. *)
Definition truthy (s : string) : bool :=
  match s with
  | EmptyString => false
  | String _ _ => true
  end.

(** [str(n)] for an integer: decimal digits, with a minus sign when
    negative. *)
Definition str_int (n : Z) : string := NilZero.string_of_int (Z.to_int n).

(** [str(x)] where [x] is a string or [None]. *)
Definition str_opt (x : option string) : string :=
  match x with
  | Some s => s
  | None => "None"
  end.

(** [d.get(key, default)] on a mapping: the value stored under [key], or
    [default] when the key is absent; [d.get(key)] is
    [d.get(key, None)]. *)
Definition get (d : gmap string string) (key : string)
    (default : option string) : option string :=
  match d !! key with
  | Some v => Some v
  | None => default
  end.

(** [x in l] for a list: some element is equal to [x]. *)
Definition elem (x : option string) (l : list (option string)) : bool :=
  existsb (fun e => bool_decide (x = e)) l.

(** [a or b] on an optional string: [a] unless it is [None] or empty. *)
Definition or_else (a : option string) (b : string) : string :=
  match a with
  | Some (String c s) => String c s
  | _ => b
  end.

End Py.

(** ** get_base_url_from_request *)

(** [config.basic]: the configured base URL, possibly absent or empty. *)
Record BasicConfig := { base_url : option string }.

(** The part of the request the module reads: [request.headers] and
    [request.url.scheme]. *)
Record Request := {
  headers : gmap string string;
  url_scheme : string
}.

Definition get_base_url_from_request (basic : BasicConfig) (request : Request)
  : string :=
  match base_url basic with
  | Some (String c b) => Py.rstrip "/" (String c b)
  | _ =>
      let forwarded_proto :=
        Py.get (headers request) "x-forwarded-proto" (Some (url_scheme request)) in
      let forwarded_host :=
        Py.get (headers request) "x-forwarded-host"
          (Py.get (headers request) "host" None) in
      Py.str_opt forwarded_proto ++ "://" ++ Py.str_opt forwarded_host
  end.

(** ** _get_account_status *)

Section AccountStatusModel.

(** [core.account.format_account_expiration] is imported by the module and
    is not part of it: it is a parameter here, together with the type of
    the remaining-hours value it receives and the type of the second
    component of its result, which the module discards. *)
Context {hours expire_aux : Type}.
Variable format_account_expiration : hours -> string * expire_aux * string.

(** [account_manager.config], as far as the module reads it.  The methods
    [get_remaining_hours()] and [is_expired()] are represented by the value
    they return at the time of the call. *)
Record AccountConfig := {
  account_id : string;
  disabled : bool;
  expires_at : option string;
  get_remaining_hours : hours;
  is_expired : bool
}.

(** An account manager of the pool; [get_cooldown_info()] is represented
    by the pair it returns. *)
Record AccountManager := {
  config : AccountConfig;
  get_cooldown_info : Z * string;
  is_available : bool;
  conversation_count : Z
}.

(** The dictionary returned by [_get_account_status]. *)
Record AccountStatus := {
  status_text : string;
  status_color : string;
  dot_color : string;
  row_opacity : string;
  action_buttons : string;
  expire_display : string;
  config_obj : AccountConfig
}.

Definition _get_account_status (account_manager : AccountManager)
  : AccountStatus :=
  let config_obj := config account_manager in
  let remaining_hours := get_remaining_hours config_obj in
  let '(expire_status_text, _, expire_display) :=
    format_account_expiration remaining_hours in
  let is_expired := is_expired config_obj in
  let is_disabled := disabled config_obj in
  let '(cooldown_seconds, cooldown_reason) :=
    get_cooldown_info account_manager in
  let '(status_text, status_color, dot_color, row_opacity, action_buttons) :=
    if is_expired then
      ("过期禁用", "#9e9e9e", "#9e9e9e", "0.5",
       Py.lit "<button onclick=`deleteAccount('" ++
       account_id config_obj ++
       Py.lit "')` class=`btn-sm btn-delete` title=`删除`>删除</button>")
    else if is_disabled then
      ("手动禁用", "#9e9e9e", "#9e9e9e", "0.5",
       Py.lit "
            <button onclick=`enableAccount('" ++
       account_id config_obj ++
       Py.lit "')` class=`btn-sm btn-enable` title=`启用`>启用</button>
            <button onclick=`deleteAccount('" ++
       account_id config_obj ++
       Py.lit "')` class=`btn-sm btn-delete` title=`删除`>删除</button>
        ")
    else if (cooldown_seconds =? -1)%Z then
      (cooldown_reason, "#f44336", "#f44336", "0.5",
       Py.lit "
            <button onclick=`enableAccount('" ++
       account_id config_obj ++
       Py.lit "')` class=`btn-sm btn-enable` title=`启用`>启用</button>
            <button onclick=`deleteAccount('" ++
       account_id config_obj ++
       Py.lit "')` class=`btn-sm btn-delete` title=`删除`>删除</button>
        ")
    else if (cooldown_seconds >? 0)%Z then
      (cooldown_reason ++ " (" ++ Py.str_int cooldown_seconds ++ "s)",
       "#ff9800", "#ff9800", "1",
       Py.lit "
            <button onclick=`disableAccount('" ++
       account_id config_obj ++
       Py.lit "')` class=`btn-sm btn-disable` title=`禁用`>禁用</button>
            <button onclick=`deleteAccount('" ++
       account_id config_obj ++
       Py.lit "')` class=`btn-sm btn-delete` title=`删除`>删除</button>
        ")
    else
      let is_avail := is_available account_manager in
      let '(status_text, status_color, dot_color) :=
        if is_avail then
          if String.eqb expire_status_text "正常" then
            (expire_status_text, "#4caf50", "#34c759")
          else if String.eqb expire_status_text "即将过期" then
            (expire_status_text, "#ff9800", "#ff9800")
          else
            (expire_status_text, "#f44336", "#f44336")
        else
          ("不可用", "#f44336", "#ff3b30") in
      (status_text, status_color, dot_color, "1",
       Py.lit "
            <button onclick=`disableAccount('" ++
       account_id config_obj ++
       Py.lit "')` class=`btn-sm btn-disable` title=`禁用`>禁用</button>
            <button onclick=`deleteAccount('" ++
       account_id config_obj ++
       Py.lit "')` class=`btn-sm btn-delete` title=`删除`>删除</button>
        ") in
  {| status_text := status_text;
     status_color := status_color;
     dot_color := dot_color;
     row_opacity := row_opacity;
     action_buttons := action_buttons;
     expire_display := expire_display;
     config_obj := config_obj |}.

End AccountStatusModel.

(** ** prepare_admin_template_data *)

(** The template variables returned by [prepare_admin_template_data].  The
    entries [request], [multi_account_mgr] and [main] hand the arguments back
    unchanged and are left out. *)
Record TemplateData := {
  current_url : string;
  api_key_status : string;
  error_alert : string;
  api_base_url : string;
  api_base_v1 : string;
  api_endpoint : string;
  accounts_html : string;
  admin_path_segment : string;
  api_path_segment : string
}.

Section AdminTemplateModel.

Context {hours expire_aux : Type}.
Variable format_account_expiration : hours -> string * expire_aux * string.

(** The error tally: the loop over [log_buffer] (run while holding
    [log_lock], which has no effect on the value computed). *)
Definition error_count_loop (log_buffer : list (gmap string string)) : Z :=
  fold_left
    (fun error_count log =>
       if Py.elem (Py.get log "level" None) [Some "ERROR"; Some "CRITICAL"]
       then (error_count + 1)%Z
       else error_count)
    log_buffer 0%Z.

(** The table row appended for one account. *)
Definition account_row (account_manager : @AccountManager hours) : string :=
  let status := _get_account_status format_account_expiration account_manager in
  let config_obj := config_obj status in
  Py.lit "
            <tr style=`opacity: " ++
  row_opacity status ++
  Py.lit ";`>
                <td data-label=`账号ID`>
                    <div style=`display: flex; align-items: center; gap: 8px;`>
                        <span class=`status-dot` style=`background-color: " ++
  dot_color status ++
  Py.lit ";`></span>
                        <span style=`font-weight: 600;`>" ++
  account_id config_obj ++
  Py.lit "</span>
                    </div>
                </td>
                <td data-label=`状态`>
                    <span style=`color: " ++
  status_color status ++
  Py.lit "; font-weight: 600; font-size: 12px;`>" ++
  status_text status ++
  Py.lit "</span>
                </td>
                <td data-label=`过期时间`>
                    <span class=`font-mono` style=`font-size: 11px; color: #6b6b6b;`>" ++
  Py.or_else (expires_at config_obj) "未设置" ++
  Py.lit "</span>
                </td>
                <td data-label=`剩余时长`>
                    <span style=`color: " ++
  status_color status ++
  Py.lit "; font-weight: 500; font-size: 12px;`>" ++
  expire_display status ++
  Py.lit "</span>
                </td>
                <td data-label=`累计对话`>
                    <span style=`color: #2563eb; font-weight: 600;`>" ++
  Py.str_int (conversation_count account_manager) ++
  Py.lit "</span>
                </td>
                <td data-label=`操作`>
                    <div style=`display: flex; gap: 6px;`>
                        " ++
  action_buttons status ++
  Py.lit "
                    </div>
                </td>
            </tr>
        ".

(** The loop over [multi_account_mgr.accounts.items()]: every row is
    appended to [accounts_rows], which starts empty. *)
Definition accounts_rows_loop
    (accounts : list (string * @AccountManager hours)) : string :=
  fold_left
    (fun accounts_rows '(account_id, account_manager) =>
       accounts_rows ++ account_row account_manager)
    accounts "".

(** The row shown when [accounts_rows] is empty. *)
Definition placeholder_row : string :=
  Py.lit "<tr><td colspan=`6` style=`text-align: center; color: #6b6b6b; padding: 24px;`>暂无账户</td></tr>".

(** The content of the table body:
    [accounts_rows if accounts_rows else '<tr>...</tr>']. *)
Definition table_body (accounts_rows : string) : string :=
  if Py.truthy accounts_rows then accounts_rows else placeholder_row.

(** The table around the body. *)
Definition accounts_table (body : string) : string :=
  Py.lit "
        <table class=`account-table`>
            <thead>
                <tr>
                    <th>账号ID</th>
                    <th>状态</th>
                    <th>过期时间</th>
                    <th>剩余时长</th>
                    <th>累计对话</th>
                    <th style=`text-align: center;`>操作</th>
                </tr>
            </thead>
            <tbody>
                " ++
  body ++
  Py.lit "
            </tbody>
        </table>
    ".

(** [config.basic] is a global of the module; it is an argument here.  Only
    the arguments the computed entries depend on are kept. *)
Definition prepare_admin_template_data
    (basic : BasicConfig) (request : Request)
    (multi_account_mgr : list (string * @AccountManager hours))
    (log_buffer : list (gmap string string))
    (api_key : string) (path_prefix : string) : TemplateData :=
  let current_url := get_base_url_from_request basic request in
  let error_count := error_count_loop log_buffer in
  let api_key_status :=
    if Py.truthy api_key then
      Py.lit "
        <div class=`alert alert-success`>
            <div class=`alert-icon`>🔒</div>
            <div class=`alert-content`>
                <strong>API 安全模式已启用</strong>
                <div class=`alert-desc`>API 端点需要携带 Authorization 密钥才能访问。</div>
            </div>
        </div>
        "
    else
      Py.lit "
        <div class=`alert alert-warning`>
            <div class=`alert-icon`>⚠️</div>
            <div class=`alert-content`>
                <strong>API 密钥未设置</strong>
                <div class=`alert-desc`>API 端点当前允许公开访问。建议在 .env 文件中配置 <code>API_KEY</code> 环境变量以提升安全性。</div>
            </div>
        </div>
        " in
  let error_alert :=
    if (error_count >? 0)%Z then
      Py.lit "
        <div class=`alert alert-error`>
            <div class=`alert-icon`>🚨</div>
            <div class=`alert-content`>
                <strong>检测到 " ++
      Py.str_int error_count ++
      Py.lit " 条错误日志</strong>
                <a href=`/public/log/html` class=`alert-link`>查看详情 &rarr;</a>
            </div>
        </div>
        "
    else "" in
  let admin_path_segment :=
    if Py.truthy path_prefix then path_prefix else "admin" in
  let api_path_segment :=
    if Py.truthy path_prefix then path_prefix ++ "/" else "" in
  let api_base_url :=
    if Py.truthy api_path_segment
    then current_url ++ "/" ++ Py.rstrip "/" api_path_segment
    else current_url in
  let api_base_v1 := current_url ++ "/" ++ api_path_segment ++ "v1" in
  let api_endpoint :=
    current_url ++ "/" ++ api_path_segment ++ "v1/chat/completions" in
  let accounts_rows := accounts_rows_loop multi_account_mgr in
  let accounts_html := accounts_table (table_body accounts_rows) in
  {| current_url := current_url;
     api_key_status := api_key_status;
     error_alert := error_alert;
     api_base_url := api_base_url;
     api_base_v1 := api_base_v1;
     api_endpoint := api_endpoint;
     accounts_html := accounts_html;
     admin_path_segment := admin_path_segment;
     api_path_segment := api_path_segment |}.

End AdminTemplateModel.

(** ** The display states of the specification

    The source has no value for the display state: a state is the branch of
    the decision that assigned the attributes.  The definitions of this
    module follow the wording of the specification (its priority list and
    the attributes it attaches to each state); the theorems below compare
    them with [_get_account_status]. *)

Module Spec.

Inductive DisplayState :=
| Expired | ManuallyDisabled | Banned | Cooldown | Healthy | Unhealthy.

Inductive Action := Enable | Disable | Delete.

Inductive Colour :=
| NeutralGray | DangerRed | WarningAmber
| SuccessGreen | SuccessGreenDot | UnavailableRed.

Inductive Opacity := Reduced | Full.

#[export] Instance DisplayState_eq_dec : EqDecision DisplayState.
Proof. solve_decision. Defined.

#[export] Instance Action_eq_dec : EqDecision Action.
Proof. solve_decision. Defined.

#[export] Instance Colour_eq_dec : EqDecision Colour.
Proof. solve_decision. Defined.

Definition all_states : list DisplayState :=
  [Expired; ManuallyDisabled; Banned; Cooldown; Healthy; Unhealthy].

(** The colour values and opacity values the source uses. *)
Definition hex (c : Colour) : string :=
  match c with
  | NeutralGray => "#9e9e9e"
  | DangerRed => "#f44336"
  | WarningAmber => "#ff9800"
  | SuccessGreen => "#4caf50"
  | SuccessGreenDot => "#34c759"
  | UnavailableRed => "#ff3b30"
  end.

Definition css (o : Opacity) : string :=
  match o with
  | Reduced => "0.5"
  | Full => "1"
  end.

(** The markup of one action button, and of the buttons of an action set:
    a single button stands alone, several buttons are laid out one per
    line. *)
Definition verb (a : Action) : string :=
  match a with
  | Enable => "enable"
  | Disable => "disable"
  | Delete => "delete"
  end.

Definition caption (a : Action) : string :=
  match a with
  | Enable => "启用"
  | Disable => "禁用"
  | Delete => "删除"
  end.

Definition button (a : Action) (id : string) : string :=
  Py.lit "<button onclick=`" ++ verb a ++ "Account('" ++ id ++
  Py.lit "')` class=`btn-sm btn-" ++ verb a ++
  Py.lit "` title=`" ++ caption a ++ Py.lit "`>" ++ caption a ++ "</button>".

Definition newline : string := String "010"%char EmptyString.

Definition render_actions (acts : list Action) (id : string) : string :=
  match acts with
  | [a] => button a id
  | _ =>
      fold_right
        (fun a rest => newline ++ "            " ++ button a id ++ rest)
        (newline ++ "        ") acts
  end.

Section Rules.

Context {hours : Type}.

(** The priority list: the guard of each rule and the state it gives. *)
Definition rules : list ((@AccountManager hours -> bool) * DisplayState) :=
  [ (fun a => is_expired (config a), Expired);
    (fun a => disabled (config a), ManuallyDisabled);
    (fun a => (fst (get_cooldown_info a) =? -1)%Z, Banned);
    (fun a => (0 <? fst (get_cooldown_info a))%Z, Cooldown);
    (fun a => is_available a, Healthy) ].

(** First matching rule wins; when none matches the account is
    Unhealthy. *)
Fixpoint first_match (rs : list ((@AccountManager hours -> bool) * DisplayState))
    (a : @AccountManager hours) : DisplayState :=
  match rs with
  | [] => Unhealthy
  | (guard, st) :: rs' => if guard a then st else first_match rs' a
  end.

Definition classify (a : @AccountManager hours) : DisplayState :=
  first_match rules a.

(** [applies st a]: the rule of [st] matches and no rule before it
    does. *)
Definition applies (st : DisplayState) (a : @AccountManager hours) : bool :=
  let expired := is_expired (config a) in
  let off := disabled (config a) in
  let banned := (fst (get_cooldown_info a) =? -1)%Z in
  let cooling := (0 <? fst (get_cooldown_info a))%Z in
  match st with
  | Expired => expired
  | ManuallyDisabled => negb expired && off
  | Banned => negb expired && negb off && banned
  | Cooldown => negb expired && negb off && negb banned && cooling
  | Healthy =>
      negb expired && negb off && negb banned && negb cooling
      && is_available a
  | Unhealthy =>
      negb expired && negb off && negb banned && negb cooling
      && negb (is_available a)
  end.

(** The attributes attached to a state.  [expire_status_text] is the
    first component of the formatter's result. *)
Definition label (st : DisplayState) (a : @AccountManager hours)
    (expire_status_text : string) : string :=
  match st with
  | Expired => "过期禁用"
  | ManuallyDisabled => "手动禁用"
  | Banned => snd (get_cooldown_info a)
  | Cooldown =>
      snd (get_cooldown_info a) ++ " (" ++
      Py.str_int (fst (get_cooldown_info a)) ++ "s)"
  | Healthy => expire_status_text
  | Unhealthy => "不可用"
  end.

Definition text_colour (st : DisplayState) (expire_status_text : string)
  : Colour :=
  match st with
  | Expired | ManuallyDisabled => NeutralGray
  | Banned => DangerRed
  | Cooldown => WarningAmber
  | Healthy =>
      if String.eqb expire_status_text "正常" then SuccessGreen
      else if String.eqb expire_status_text "即将过期" then WarningAmber
      else DangerRed
  | Unhealthy => DangerRed
  end.

Definition indicator_colour (st : DisplayState) (expire_status_text : string)
  : Colour :=
  match st with
  | Healthy =>
      if String.eqb expire_status_text "正常" then SuccessGreenDot
      else text_colour st expire_status_text
  | Unhealthy => UnavailableRed
  | _ => text_colour st expire_status_text
  end.

Definition opacity (st : DisplayState) : Opacity :=
  match st with
  | Expired | ManuallyDisabled | Banned => Reduced
  | Cooldown | Healthy | Unhealthy => Full
  end.

Definition permitted_actions (st : DisplayState) : list Action :=
  match st with
  | Expired => [Delete]
  | ManuallyDisabled | Banned => [Enable; Delete]
  | Cooldown | Healthy | Unhealthy => [Disable; Delete]
  end.

(** The status record the specification describes for state [st]. *)
Definition view_row {expire_aux : Type}
    (format_account_expiration : hours -> string * expire_aux * string)
    (st : DisplayState) (a : @AccountManager hours) : @AccountStatus hours :=
  let formatted :=
    format_account_expiration (get_remaining_hours (config a)) in
  let expire_status_text := fst (fst formatted) in
  {| status_text := label st a expire_status_text;
     status_color := hex (text_colour st expire_status_text);
     dot_color := hex (indicator_colour st expire_status_text);
     row_opacity := css (opacity st);
     action_buttons :=
       render_actions (permitted_actions st) (account_id (config a));
     expire_display := snd formatted;
     config_obj := config a |}.

(** A record counts as an error record when its level is ERROR or
    CRITICAL. *)
Definition is_error_record (log : gmap string string) : bool :=
  match log !! "level" with
  | Some level =>
      bool_decide (level = "ERROR") || bool_decide (level = "CRITICAL")
  | None => false
  end.

(** The row collection: a single placeholder entry for an empty pool,
    one entry per account otherwise. *)
Definition row_collection {expire_aux : Type}
    (format_account_expiration : hours -> string * expire_aux * string)
    (accounts : list (string * @AccountManager hours)) : list string :=
  match accounts with
  | [] => [placeholder_row]
  | _ => map (fun kv => account_row format_account_expiration (snd kv)) accounts
  end.

End Rules.

End Spec.


(** ** Concrete inputs

    A formatter, accounts, a request and log records at which the statements
    below are evaluated. *)

Module Demo.

(** Remaining hours are whole numbers here; an account with less than three
    days left is reported as expiring soon. *)
Definition format_hours (remaining_hours : Z) : string * unit * string :=
  if (remaining_hours <? 72)%Z
  then ("即将过期", tt, Py.str_int remaining_hours ++ "h")
  else ("正常", tt, Py.str_int (remaining_hours / 24) ++ "d").

Definition account (id : string) (off expired : bool) (remaining : Z)
    (cooldown : Z * string) (available : bool) : @AccountManager Z :=
  {| config :=
       {| account_id := id;
          disabled := off;
          expires_at := Some "2026-12-31 00:00:00";
          get_remaining_hours := remaining;
          is_expired := expired |};
     get_cooldown_info := cooldown;
     is_available := available;
     conversation_count := 7 |}.

Definition expired_banned : @AccountManager Z :=
  account "acc-1" true true 0 (-1, "banned upstream")%Z false.

Definition cooling : @AccountManager Z :=
  account "acc-2" false false 240 (45, "rate limited")%Z false.

Definition healthy : @AccountManager Z :=
  account "acc-3" false false 240 (0, "")%Z true.

Definition proxied_request : Request :=
  {| headers :=
       <["x-forwarded-proto" := "https"]>
         (<["x-forwarded-host" := "api.example.com"]>
            (<["host" := "internal:8080"]> ∅));
     url_scheme := "http" |}.

Definition record (level : string) : gmap string string :=
  <["level" := level]> (<["message" := "..."]> ∅).

Definition no_level : gmap string string := <["message" := "..."]> ∅.

Definition five_records : list (gmap string string) :=
  map record ["INFO"; "ERROR"; "WARNING"; "CRITICAL"; "ERROR"].

End Demo.

(** Further concrete inputs, for the properties of the second part. *)

Module Sample.

(** A request that carries no header at all. *)
Definition bare_request : Request :=
  {| headers := ∅; url_scheme := "http" |}.

Definition switched_off : @AccountManager Z :=
  Demo.account "acc-4" true false 240 (30, "rate limited")%Z true.

Definition banned : @AccountManager Z :=
  Demo.account "acc-5" false false 240 (-1, "banned upstream")%Z true.

Definition negative_cooldown : @AccountManager Z :=
  Demo.account "acc-6" false false 240 (-5, "clock skew")%Z true.

Definition no_cooldown : @AccountManager Z :=
  Demo.account "acc-6" false false 240 (0, "")%Z true.

Definition expired_cooling : @AccountManager Z :=
  Demo.account "acc-7" false true 0 (45, "rate limited")%Z false.

Definition expired_idle : @AccountManager Z :=
  Demo.account "acc-7" false true 0 (0, "")%Z true.

End Sample.

(** * Properties *)

(** ** Strings *)

Lemma append_cons (c : ascii) (s t : string) :
  String c s ++ t = String c (s ++ t).
Proof. reflexivity. Qed.

Lemma append_nil_r (s : string) : s ++ "" = s.
Proof. induction s as [|c s IH]; [reflexivity|]. now rewrite append_cons, IH. Qed.

Lemma append_assoc (s t u : string) : (s ++ t) ++ u = s ++ (t ++ u).
Proof.
  induction s as [|c s IH]; [reflexivity|].
  now rewrite !append_cons, IH.
Qed.

Lemma last_char_append_char (s : string) (c : ascii) :
  Py.last_char (s ++ String c "") = Some c.
Proof.
  induction s as [|d s IH]; [reflexivity|].
  rewrite append_cons. cbn [Py.last_char]. rewrite IH.
  destruct s; reflexivity.
Qed.

(** A string ends with [c] exactly when it is some string followed by [c]. *)
Lemma last_char_Some (s : string) (c : ascii) :
  Py.last_char s = Some c <-> exists q, s = q ++ String c "".
Proof.
  split.
  - induction s as [|d s IH]; [discriminate|].
    destruct s as [|e s].
    + intros [= ->]. now exists "".
    + intros H. destruct (IH H) as [q Hq]. exists (String d q).
      now rewrite append_cons, <- Hq.
  - intros [q ->]. apply last_char_append_char.
Qed.

Lemma rstrip_cons (chars : string) (c : ascii) (s : string) :
  Py.rstrip chars (String c s) =
  match Py.rstrip chars s with
  | EmptyString => if Py.char_in c chars then EmptyString else String c EmptyString
  | String d r => String c (String d r)
  end.
Proof. reflexivity. Qed.

(** What [rstrip] removes is a suffix made of characters of [chars]. *)
Lemma rstrip_suffix (chars s : string) :
  exists t, s = Py.rstrip chars s ++ t /\ Py.all_in chars t = true.
Proof.
  induction s as [|c s (t & Hs & Ht)].
  - now exists "".
  - rewrite rstrip_cons. destruct (Py.rstrip chars s) as [|d r] eqn:E.
    + destruct (Py.char_in c chars) eqn:Hc.
      * exists (String c t). cbn in Hs. subst s. split; [reflexivity|].
        cbn [Py.all_in]. now rewrite Hc, Ht.
      * exists t. cbn in Hs. now subst s.
    + exists t. split; [|exact Ht]. rewrite append_cons. now f_equal.
Qed.

(** What [rstrip] returns does not end with a character of [chars]. *)
Lemma rstrip_last (chars s : string) (c : ascii) :
  Py.last_char (Py.rstrip chars s) = Some c -> Py.char_in c chars = false.
Proof.
  induction s as [|d s IH]; [discriminate|].
  rewrite rstrip_cons. destruct (Py.rstrip chars s) as [|e r] eqn:E.
  - destruct (Py.char_in d chars) eqn:Hd; [discriminate|].
    now intros [= <-].
  - intros H. apply IH. exact H.
Qed.

(** A string that does not end with a character of [chars] is left as it
    is. *)
Lemma rstrip_fixed (chars s : string) :
  (forall c, Py.last_char s = Some c -> Py.char_in c chars = false) ->
  Py.rstrip chars s = s.
Proof.
  induction s as [|d s IH]; [reflexivity|].
  intros H. rewrite rstrip_cons. destruct s as [|e s].
  - cbn. now rewrite (H d eq_refl).
  - rewrite IH by (intros c Hc; apply H; exact Hc).
    reflexivity.
Qed.

Lemma rstrip_app_stripped (chars s t : string) :
  Py.all_in chars t = true ->
  Py.rstrip chars (s ++ t) = Py.rstrip chars s.
Proof.
  intros Ht. induction s as [|d s IH].
  - cbn [String.append]. change ("" ++ t) with t.
    induction t as [|c t IHt]; [reflexivity|].
    cbn [Py.all_in] in Ht. apply andb_prop in Ht as [Hc Ht].
    rewrite rstrip_cons, (IHt Ht). cbn. now rewrite Hc.
  - rewrite append_cons, !rstrip_cons, IH. reflexivity.
Qed.

Lemma char_in_slash (c : ascii) :
  Py.char_in c "/" = false <-> c <> "/"%char.
Proof.
  cbn. rewrite orb_false_r. apply Ascii.eqb_neq.
Qed.

(** Reading back the decimal text of an integer gives the integer. *)
Lemma str_int_read_back (n : Z) :
  option_map Z.of_int (NilZero.int_of_string (Py.str_int n)) = Some n.
Proof.
  unfold Py.str_int. rewrite NilZero.isi.
  - cbn. now rewrite DecimalZ.of_to.
  - destruct n; cbn; try discriminate.
    intros [= H]. now apply DecimalPos.Unsigned.to_uint_nonnil in H.
  - destruct n; cbn; try discriminate.
    intros [= H]. now apply DecimalPos.Unsigned.to_uint_nonnil in H.
Qed.

Example str_int_examples :
  Py.str_int 45 = "45" /\ Py.str_int 0 = "0" /\ Py.str_int (-1) = "-1".
Proof. repeat split. Qed.

Example rstrip_examples :
  Py.rstrip "/" "https://example.com//" = "https://example.com"
  /\ Py.rstrip "/" "a/b/" = "a/b"
  /\ Py.rstrip "/" "//" = ""
  /\ Py.rstrip "/" "a/b" = "a/b".
Proof. repeat split. Qed.

(** ** Base URL resolution *)

Lemma get_base_url_configured (basic : BasicConfig) (request : Request)
    (b : string) :
  base_url basic = Some b -> b <> "" ->
  get_base_url_from_request basic request = Py.rstrip "/" b.
Proof.
  intros Hb Hne. unfold get_base_url_from_request. rewrite Hb.
  destruct b; [contradiction|reflexivity].
Qed.

Lemma get_base_url_derived (basic : BasicConfig) (request : Request) :
  base_url basic = None \/ base_url basic = Some "" ->
  get_base_url_from_request basic request =
  Py.str_opt
    (Py.get (headers request) "x-forwarded-proto" (Some (url_scheme request)))
  ++ "://" ++
  Py.str_opt
    (Py.get (headers request) "x-forwarded-host"
       (Py.get (headers request) "host" None)).
Proof.
  intros [Hb|Hb]; unfold get_base_url_from_request; now rewrite Hb.
Qed.

(** C5.  A configured, non-empty base URL is returned with its trailing
    slashes removed (what is removed is a run of "/" and the result does not
    end with "/").  With no base URL configured the result is
    scheme://host, where the scheme is the x-forwarded-proto header when the
    request has one and the scheme of the request URL otherwise, and the host
    is the x-forwarded-host header when the request has one and the host
    header otherwise.  The request of the specification's example resolves
    to https://api.example.com. *)
Theorem get_base_url_from_request_precedence
    (basic : BasicConfig) (request : Request) :
  (forall b, base_url basic = Some b -> b <> "" ->
     get_base_url_from_request basic request = Py.rstrip "/" b /\
     (exists t, b = get_base_url_from_request basic request ++ t /\
                Py.all_in "/" t = true) /\
     Py.last_char (get_base_url_from_request basic request) <> Some "/"%char)
  /\
  (base_url basic = None \/ base_url basic = Some "" ->
     exists scheme host,
       get_base_url_from_request basic request = scheme ++ "://" ++ host /\
       (forall p, headers request !! "x-forwarded-proto" = Some p -> scheme = p) /\
       (headers request !! "x-forwarded-proto" = None ->
        scheme = url_scheme request) /\
       (forall h, headers request !! "x-forwarded-host" = Some h -> host = h) /\
       (headers request !! "x-forwarded-host" = None ->
        forall h, headers request !! "host" = Some h -> host = h))
  /\
  get_base_url_from_request {| base_url := Some "" |} Demo.proxied_request
  = "https://api.example.com".
Proof.
  split; [|split].
  - intros b Hb Hne. rewrite (get_base_url_configured _ _ _ Hb Hne).
    split; [reflexivity|split].
    + apply rstrip_suffix.
    + intros H. apply rstrip_last in H. discriminate H.
  - intros Hb. rewrite (get_base_url_derived _ _ Hb).
    eexists _, _. split; [reflexivity|]. unfold Py.get.
    repeat split.
    + intros p ->. reflexivity.
    + intros ->. reflexivity.
    + intros h ->. reflexivity.
    + intros -> h ->. reflexivity.
  - vm_compute. reflexivity.
Qed.

(** ** Endpoint composition *)

Lemma rstrip_prefix_slash (path_prefix : string) :
  Py.last_char path_prefix <> Some "/"%char ->
  Py.rstrip "/" (path_prefix ++ "/") = path_prefix.
Proof.
  intros H. rewrite rstrip_app_stripped by reflexivity.
  apply rstrip_fixed. intros c Hc. apply char_in_slash. congruence.
Qed.

(** C9.  For a path prefix that does not end with "/", the versioned base is
    the API base followed by "/v1" and the chat endpoint is the versioned
    base followed by "/chat/completions"; the API base is the resolved
    current URL when the prefix is empty and the current URL, "/" and the
    prefix otherwise. *)
Theorem endpoint_composition {hours expire_aux : Type}
    (format_account_expiration : hours -> string * expire_aux * string)
    (basic : BasicConfig) (request : Request)
    (multi_account_mgr : list (string * @AccountManager hours))
    (log_buffer : list (gmap string string))
    (api_key path_prefix : string) :
  Py.last_char path_prefix <> Some "/"%char ->
  let data :=
    prepare_admin_template_data format_account_expiration basic request
      multi_account_mgr log_buffer api_key path_prefix in
  api_base_v1 data = api_base_url data ++ "/v1" /\
  api_endpoint data = api_base_v1 data ++ "/chat/completions" /\
  current_url data = get_base_url_from_request basic request /\
  (path_prefix = "" -> api_base_url data = current_url data) /\
  (path_prefix <> "" ->
   api_base_url data = current_url data ++ "/" ++ path_prefix).
Proof.
  intros Hlast data. subst data. unfold prepare_admin_template_data.
  cbn [api_base_v1 api_base_url api_endpoint current_url].
  set (url := get_base_url_from_request basic request).
  destruct path_prefix as [|c p].
  - cbn [Py.truthy]. repeat split.
    + rewrite append_assoc. reflexivity.
    + congruence.
  - cbn [Py.truthy]. change (Py.truthy (String c p ++ "/")) with true.
    cbv iota. rewrite (rstrip_prefix_slash _ Hlast).
    repeat split.
    + rewrite !append_assoc. reflexivity.
    + rewrite !append_assoc. reflexivity.
    + congruence.
Qed.

Lemma endpoint_composition_witness :
  let data :=
    prepare_admin_template_data Demo.format_hours {| base_url := None |}
      Demo.proxied_request [] [] "" "gemini" in
  Py.last_char "gemini" <> Some "/"%char /\
  api_base_url data = "https://api.example.com/gemini" /\
  api_base_v1 data = api_base_url data ++ "/v1" /\
  api_endpoint data = api_base_v1 data ++ "/chat/completions".
Proof.
  assert (Hlast : Py.last_char "gemini" <> Some "/"%char)
    by (vm_compute; discriminate).
  destruct (endpoint_composition Demo.format_hours {| base_url := None |}
              Demo.proxied_request [] [] "" "gemini" Hlast)
    as (Hv1 & Hchat & _).
  cbv zeta.
  split; [exact Hlast|].
  split; [vm_compute; reflexivity|].
  split; [exact Hv1|exact Hchat].
Defined.

(** ** The status decision *)

(** The markup of the three action sets, as the source spells it. *)
Lemma render_delete (id : string) :
  Spec.render_actions [Spec.Delete] id =
  Py.lit "<button onclick=`deleteAccount('" ++ id ++
  Py.lit "')` class=`btn-sm btn-delete` title=`删除`>删除</button>".
Proof.
  unfold Spec.render_actions, Spec.button. rewrite ?append_assoc. reflexivity.
Qed.

Lemma render_enable_delete (id : string) :
  Spec.render_actions [Spec.Enable; Spec.Delete] id =
  Py.lit "
            <button onclick=`enableAccount('" ++ id ++
  Py.lit "')` class=`btn-sm btn-enable` title=`启用`>启用</button>
            <button onclick=`deleteAccount('" ++ id ++
  Py.lit "')` class=`btn-sm btn-delete` title=`删除`>删除</button>
        ".
Proof.
  unfold Spec.render_actions, Spec.button. cbn [fold_right].
  rewrite ?append_assoc. reflexivity.
Qed.

Lemma render_disable_delete (id : string) :
  Spec.render_actions [Spec.Disable; Spec.Delete] id =
  Py.lit "
            <button onclick=`disableAccount('" ++ id ++
  Py.lit "')` class=`btn-sm btn-disable` title=`禁用`>禁用</button>
            <button onclick=`deleteAccount('" ++ id ++
  Py.lit "')` class=`btn-sm btn-delete` title=`删除`>删除</button>
        ".
Proof.
  unfold Spec.render_actions, Spec.button. cbn [fold_right].
  rewrite ?append_assoc. reflexivity.
Qed.

Section StatusDecision.

Context {hours expire_aux : Type}.
Variable format_account_expiration : hours -> string * expire_aux * string.

(** The record computed by the source is the one the specification attaches
    to the state its priority list selects. *)
Lemma get_account_status_view (a : @AccountManager hours) :
  _get_account_status format_account_expiration a =
  Spec.view_row format_account_expiration (Spec.classify a) a.
Proof.
  unfold _get_account_status, Spec.view_row, Spec.classify, Spec.rules.
  cbn [Spec.first_match].
  destruct (format_account_expiration (get_remaining_hours (config a)))
    as [[text aux] display].
  destruct (get_cooldown_info a) as [seconds reason] eqn:Hinfo.
  cbn [fst snd]. rewrite Z.gtb_ltb.
  destruct (is_expired (config a)); [|destruct (disabled (config a));
    [|destruct (seconds =? -1)%Z; [|destruct (0 <? seconds)%Z;
      [|destruct (is_available a);
        [destruct (String.eqb text "正常") eqn:Hnormal;
          [|destruct (String.eqb text "即将过期") eqn:Hsoon]|]]]]];
    cbn [Spec.label Spec.text_colour Spec.indicator_colour Spec.opacity
         Spec.permitted_actions Spec.hex Spec.css fst snd];
    rewrite ?Hnormal, ?Hsoon, ?Hinfo; cbn [fst snd];
    rewrite ?render_delete, ?render_enable_delete, ?render_disable_delete;
    reflexivity.
Qed.

(** Exactly the state selected by the priority list applies. *)
Lemma applies_iff_classify (a : @AccountManager hours) (st : Spec.DisplayState) :
  Spec.applies st a = true <-> st = Spec.classify a.
Proof.
  unfold Spec.classify, Spec.rules, Spec.applies. cbn [Spec.first_match].
  destruct (is_expired (config a)), (disabled (config a)),
    (fst (get_cooldown_info a) =? -1)%Z, (0 <? fst (get_cooldown_info a))%Z,
    (is_available a), st; cbn; split; congruence.
Qed.

(** The priority list, written as the chain of tests it stands for. *)
Lemma classify_chain (a : @AccountManager hours) :
  Spec.classify a =
  if is_expired (config a) then Spec.Expired
  else if disabled (config a) then Spec.ManuallyDisabled
  else if (fst (get_cooldown_info a) =? -1)%Z then Spec.Banned
  else if (0 <? fst (get_cooldown_info a))%Z then Spec.Cooldown
  else if is_available a then Spec.Healthy
  else Spec.Unhealthy.
Proof. reflexivity. Qed.

(** C1.  For every account, [_get_account_status] returns the attributes of
    one display state: the state chosen by testing is_expired, then disabled,
    then cooldown_seconds == -1, then cooldown_seconds > 0, then
    is_available, in that order.  That state is the only one whose rule
    applies, so the mapping from signals to state is a total function and no
    input has two states. *)
Theorem classify_total_exactly_one (a : @AccountManager hours) :
  _get_account_status format_account_expiration a =
    Spec.view_row format_account_expiration (Spec.classify a) a
  /\ Spec.classify a =
       (if is_expired (config a) then Spec.Expired
        else if disabled (config a) then Spec.ManuallyDisabled
        else if (fst (get_cooldown_info a) =? -1)%Z then Spec.Banned
        else if (0 <? fst (get_cooldown_info a))%Z then Spec.Cooldown
        else if is_available a then Spec.Healthy
        else Spec.Unhealthy)
  /\ (forall st, Spec.applies st a = true <-> st = Spec.classify a)
  /\ (forall st, In st Spec.all_states).
Proof.
  split; [apply get_account_status_view|].
  split; [apply classify_chain|].
  split; [intros st; apply applies_iff_classify|].
  intros []; cbn; tauto.
Qed.

(** A single button does not start like a column of buttons. *)
Lemma render_delete_not_enable_delete (id : string) :
  Spec.render_actions [Spec.Delete] id <>
  Spec.render_actions [Spec.Enable; Spec.Delete] id.
Proof.
  rewrite render_delete, render_enable_delete. discriminate.
Qed.

(** C2.  An account that is expired, disabled and permanently blocked is
    shown as Expired: label "过期禁用", neutral gray text and dot, reduced
    opacity, delete as the only action.  It is not shown as Banned or as
    ManuallyDisabled. *)
Theorem expired_dominates (a : @AccountManager hours) :
  is_expired (config a) = true ->
  disabled (config a) = true ->
  fst (get_cooldown_info a) = (-1)%Z ->
  let status := _get_account_status format_account_expiration a in
  Spec.classify a = Spec.Expired
  /\ status_text status = "过期禁用"
  /\ status_color status = Spec.hex Spec.NeutralGray
  /\ dot_color status = Spec.hex Spec.NeutralGray
  /\ row_opacity status = Spec.css Spec.Reduced
  /\ action_buttons status =
       Spec.render_actions [Spec.Delete] (account_id (config a))
  /\ Spec.applies Spec.Banned a = false
  /\ Spec.applies Spec.ManuallyDisabled a = false
  /\ status <> Spec.view_row format_account_expiration Spec.Banned a
  /\ status <> Spec.view_row format_account_expiration Spec.ManuallyDisabled a.
Proof.
  intros Hexp Hoff Hban status. subst status.
  assert (Hst : Spec.classify a = Spec.Expired)
    by (rewrite classify_chain, Hexp; reflexivity).
  rewrite get_account_status_view, Hst.
  unfold Spec.applies. rewrite Hexp.
  repeat (split; [reflexivity|]).
  split; intros H; apply (f_equal action_buttons) in H;
    exact (render_delete_not_enable_delete _ H).
Qed.

(** C3.  For an account that is neither expired nor disabled and has a
    positive cooldown, the label is the cooldown reason, " (", the seconds in
    decimal and "s)" -- "rate limited (45s)" for 45 seconds of "rate
    limited" -- with warning amber text and dot, full opacity and the actions
    disable and delete. *)
Theorem cooldown_label (a : @AccountManager hours)
    (cooldown_seconds : Z) (cooldown_reason : string) :
  is_expired (config a) = false ->
  disabled (config a) = false ->
  get_cooldown_info a = (cooldown_seconds, cooldown_reason) ->
  (cooldown_seconds > 0)%Z ->
  let status := _get_account_status format_account_expiration a in
  status_text status =
    cooldown_reason ++ " (" ++ Py.str_int cooldown_seconds ++ "s)"
  /\ (cooldown_seconds = 45%Z -> cooldown_reason = "rate limited" ->
      status_text status = "rate limited (45s)")
  /\ status_color status = Spec.hex Spec.WarningAmber
  /\ dot_color status = Spec.hex Spec.WarningAmber
  /\ row_opacity status = Spec.css Spec.Full
  /\ action_buttons status =
       Spec.render_actions [Spec.Disable; Spec.Delete] (account_id (config a))
  /\ Spec.classify a = Spec.Cooldown.
Proof.
  intros Hexp Hoff Hinfo Hpos status. subst status.
  assert (Hst : Spec.classify a = Spec.Cooldown).
  { rewrite classify_chain, Hexp, Hoff, Hinfo. cbn [fst].
    destruct (Z.eqb_spec cooldown_seconds (-1)); [lia|].
    destruct (Z.ltb_spec 0 cooldown_seconds); [reflexivity|lia]. }
  rewrite get_account_status_view, Hst.
  cbn [Spec.view_row status_text status_color dot_color row_opacity
       action_buttons Spec.label Spec.text_colour Spec.indicator_colour
       Spec.opacity Spec.permitted_actions].
  rewrite Hinfo. cbn [fst snd].
  split; [reflexivity|]. split; [|auto].
  intros -> ->. reflexivity.
Qed.

(** C4.  For an account that is neither expired nor disabled and has
    cooldown 0, the row has full opacity and the actions disable and delete.
    When it is available and the expiration text is "正常", the label is
    "正常", the text is success green and the dot is another green.  When it
    is available and the expiration text is neither "正常" nor "即将过期",
    the label is that text and both colours are danger red.  When it is not
    available, the label is "不可用", the text is danger red and the dot is
    another red. *)
Theorem healthy_and_unhealthy (a : @AccountManager hours)
    (cooldown_reason expire_status_text display : string) (aux : expire_aux) :
  is_expired (config a) = false ->
  disabled (config a) = false ->
  get_cooldown_info a = (0%Z, cooldown_reason) ->
  format_account_expiration (get_remaining_hours (config a)) =
    (expire_status_text, aux, display) ->
  let status := _get_account_status format_account_expiration a in
  row_opacity status = Spec.css Spec.Full
  /\ action_buttons status =
       Spec.render_actions [Spec.Disable; Spec.Delete] (account_id (config a))
  /\ (is_available a = true -> expire_status_text = "正常" ->
      Spec.classify a = Spec.Healthy
      /\ status_text status = "正常"
      /\ status_color status = Spec.hex Spec.SuccessGreen
      /\ dot_color status = Spec.hex Spec.SuccessGreenDot
      /\ status_color status <> dot_color status)
  /\ (is_available a = true ->
      expire_status_text <> "正常" -> expire_status_text <> "即将过期" ->
      Spec.classify a = Spec.Healthy
      /\ status_text status = expire_status_text
      /\ status_color status = Spec.hex Spec.DangerRed
      /\ dot_color status = Spec.hex Spec.DangerRed)
  /\ (is_available a = false ->
      Spec.classify a = Spec.Unhealthy
      /\ status_text status = "不可用"
      /\ status_color status = Spec.hex Spec.DangerRed
      /\ dot_color status = Spec.hex Spec.UnavailableRed
      /\ status_color status <> dot_color status).
Proof.
  intros Hexp Hoff Hinfo Hfmt status. subst status.
  assert (Hst : Spec.classify a =
                if is_available a then Spec.Healthy else Spec.Unhealthy)
    by (rewrite classify_chain, Hexp, Hoff, Hinfo; reflexivity).
  rewrite get_account_status_view.
  unfold Spec.view_row. rewrite Hfmt.
  cbn [status_text status_color dot_color row_opacity action_buttons fst snd].
  rewrite Hst.
  split; [now destruct (is_available a)|].
  split; [now destruct (is_available a)|].
  split; [|split].
  - intros -> ->. repeat (split; [reflexivity|]). discriminate.
  - intros -> Hn Hs. apply String.eqb_neq in Hn, Hs.
    cbn [Spec.label Spec.text_colour Spec.indicator_colour].
    rewrite Hn, Hs. repeat split.
  - intros ->. repeat (split; [reflexivity|]). discriminate.
Qed.

(** Every action of an action set has its button in the markup. *)
Lemma render_actions_contains (acts : list Spec.Action) (act : Spec.Action)
    (id : string) :
  In act acts ->
  exists before after,
    Spec.render_actions acts id = before ++ Spec.button act id ++ after.
Proof.
  intros Hin.
  assert (Hfold : forall tail l, In act l ->
    exists before after,
      fold_right
        (fun a rest =>
           Spec.newline ++ "            " ++ Spec.button a id ++ rest)
        tail l
      = before ++ Spec.button act id ++ after).
  { intros tail l. induction l as [|a l IH]; [intros []|].
    intros [->|Hl]; cbn [fold_right].
    - eexists (Spec.newline ++ "            "), _.
      rewrite append_assoc. reflexivity.
    - destruct (IH Hl) as (before & after & ->).
      exists (Spec.newline ++ "            " ++ Spec.button a id ++ before), after.
      rewrite !append_assoc. reflexivity. }
  destruct acts as [|a [|b acts]].
  - destruct Hin.
  - destruct Hin as [->|[]]. exists "", "". cbn [Spec.render_actions].
    rewrite append_nil_r. reflexivity.
  - apply Hfold, Hin.
Qed.

(** C10.  Whatever the account, delete is among the permitted actions of its
    state and the delete button is part of the action markup returned; no
    display state is without delete. *)
Theorem delete_always_permitted (a : @AccountManager hours) :
  let status := _get_account_status format_account_expiration a in
  In Spec.Delete (Spec.permitted_actions (Spec.classify a))
  /\ action_buttons status =
       Spec.render_actions (Spec.permitted_actions (Spec.classify a))
         (account_id (config a))
  /\ (exists before after,
        action_buttons status =
        before ++ Spec.button Spec.Delete (account_id (config a)) ++ after)
  /\ (forall st, In Spec.Delete (Spec.permitted_actions st)).
Proof.
  intros status. subst status.
  assert (Hall : forall st, In Spec.Delete (Spec.permitted_actions st))
    by (intros []; cbn; tauto).
  rewrite get_account_status_view. cbn [Spec.view_row action_buttons].
  split; [apply Hall|]. split; [reflexivity|]. split; [|exact Hall].
  apply render_actions_contains, Hall.
Qed.

End StatusDecision.

Lemma expired_dominates_witness :
  let status := _get_account_status Demo.format_hours Demo.expired_banned in
  is_expired (config Demo.expired_banned) = true
  /\ disabled (config Demo.expired_banned) = true
  /\ fst (get_cooldown_info Demo.expired_banned) = (-1)%Z
  /\ Spec.classify Demo.expired_banned = Spec.Expired
  /\ status_text status = "过期禁用".
Proof.
  destruct (expired_dominates Demo.format_hours Demo.expired_banned
              eq_refl eq_refl eq_refl) as (Hst & Htext & _).
  cbv zeta. do 3 (split; [reflexivity|]). split; [exact Hst|exact Htext].
Defined.

Lemma cooldown_label_witness :
  is_expired (config Demo.cooling) = false
  /\ disabled (config Demo.cooling) = false
  /\ get_cooldown_info Demo.cooling = (45%Z, "rate limited")
  /\ status_text (_get_account_status Demo.format_hours Demo.cooling)
     = "rate limited (45s)".
Proof.
  destruct (cooldown_label Demo.format_hours Demo.cooling 45 "rate limited"
              eq_refl eq_refl eq_refl eq_refl) as (_ & Hexample & _).
  do 3 (split; [reflexivity|]). exact (Hexample eq_refl eq_refl).
Defined.

Lemma healthy_and_unhealthy_witness :
  let status := _get_account_status Demo.format_hours Demo.healthy in
  is_expired (config Demo.healthy) = false
  /\ disabled (config Demo.healthy) = false
  /\ get_cooldown_info Demo.healthy = (0%Z, "")
  /\ Demo.format_hours (get_remaining_hours (config Demo.healthy))
     = ("正常", tt, "10d")
  /\ is_available Demo.healthy = true
  /\ status_text status = "正常"
  /\ status_color status = "#4caf50"
  /\ dot_color status = "#34c759".
Proof.
  destruct (healthy_and_unhealthy Demo.format_hours Demo.healthy
              "" "正常" "10d" tt eq_refl eq_refl eq_refl eq_refl)
    as (_ & _ & Hnormal & _).
  destruct (Hnormal eq_refl eq_refl) as (_ & Htext & Hcolour & Hdot & _).
  cbv zeta. do 5 (split; [reflexivity|]).
  split; [exact Htext|]. split; [exact Hcolour|exact Hdot].
Defined.

(** ** The error tally *)

(** The membership test of the loop singles out the error records. *)
Lemma elem_level_is_error (log : gmap string string) :
  Py.elem (Py.get log "level" None) [Some "ERROR"; Some "CRITICAL"] =
  Spec.is_error_record log.
Proof.
  unfold Py.elem, Py.get, Spec.is_error_record. cbn [existsb].
  destruct (log !! "level") as [level|]; [|reflexivity].
  rewrite orb_false_r. f_equal; apply bool_decide_ext; split; congruence.
Qed.

Lemma error_count_loop_nil : error_count_loop [] = 0%Z.
Proof. reflexivity. Qed.

(** The loop adds one for each error record it meets, starting from any
    value of the counter. *)
Lemma error_count_fold (log_buffer : list (gmap string string)) (start : Z) :
  fold_left
    (fun error_count log =>
       if Py.elem (Py.get log "level" None) [Some "ERROR"; Some "CRITICAL"]
       then (error_count + 1)%Z
       else error_count)
    log_buffer start
  = (start + Z.of_nat (length (List.filter Spec.is_error_record log_buffer)))%Z.
Proof.
  revert start. induction log_buffer as [|log logs IH]; intros start.
  - cbn. lia.
  - cbn [fold_left List.filter]. rewrite IH, elem_level_is_error.
    destruct (Spec.is_error_record log); cbn [length]; lia.
Qed.

Lemma error_count_loop_filter (log_buffer : list (gmap string string)) :
  error_count_loop log_buffer =
  Z.of_nat (length (List.filter Spec.is_error_record log_buffer)).
Proof. unfold error_count_loop. now rewrite error_count_fold. Qed.

(** A record that is not an error record can be taken out of the buffer
    without changing the tally. *)
Lemma error_count_loop_skip (log : gmap string string)
    (before after : list (gmap string string)) :
  Spec.is_error_record log = false ->
  error_count_loop (before ++ log :: after) = error_count_loop (before ++ after).
Proof.
  intros Hlog. rewrite !error_count_loop_filter, !List.filter_app.
  cbn [List.filter]. now rewrite Hlog.
Qed.

(** C6.  The error count is the number of records of the buffer whose level
    is "ERROR" or "CRITICAL"; a record without a level changes nothing in
    the count; the levels INFO, ERROR, WARNING, CRITICAL, ERROR give 3. *)
Theorem error_count_is_number_of_error_records
    (log_buffer : list (gmap string string)) :
  error_count_loop log_buffer =
    Z.of_nat (length (List.filter Spec.is_error_record log_buffer))
  /\ (forall log before after,
        log !! "level" = None ->
        error_count_loop (before ++ log :: after) =
        error_count_loop (before ++ after))
  /\ error_count_loop [Demo.no_level] = 0%Z
  /\ error_count_loop Demo.five_records = 3%Z.
Proof.
  split; [apply error_count_loop_filter|]. split; [|split].
  - intros log before after Hnone. apply error_count_loop_skip.
    unfold Spec.is_error_record. now rewrite Hnone.
  - vm_compute. reflexivity.
  - vm_compute. reflexivity.
Qed.

(** C8.  A record whose level is a string other than exactly "ERROR" or
    "CRITICAL" is not counted, wherever it stands in the buffer; the
    comparison distinguishes upper and lower case. *)
Theorem error_level_match_is_exact (log : gmap string string) (level : string)
    (before after : list (gmap string string)) :
  log !! "level" = Some level ->
  level <> "ERROR" ->
  level <> "CRITICAL" ->
  error_count_loop (before ++ log :: after) = error_count_loop (before ++ after)
  /\ error_count_loop [log] = 0%Z
  /\ error_count_loop [Demo.record "error"; Demo.record "Critical"] = 0%Z.
Proof.
  intros Hlevel Herror Hcritical.
  assert (Hlog : Spec.is_error_record log = false).
  { unfold Spec.is_error_record. rewrite Hlevel.
    rewrite !bool_decide_eq_false_2 by assumption. reflexivity. }
  split; [now apply error_count_loop_skip|].
  split; [apply (error_count_loop_skip log [] [] Hlog)|].
  vm_compute. reflexivity.
Qed.

Lemma error_level_match_is_exact_witness :
  Demo.record "error" !! "level" = Some "error"
  /\ error_count_loop [Demo.record "ERROR"; Demo.record "error"; Demo.record "INFO"]
     = error_count_loop [Demo.record "ERROR"; Demo.record "INFO"]
  /\ error_count_loop [Demo.record "error"] = 0%Z.
Proof.
  assert (Hlevel : Demo.record "error" !! "level" = Some "error")
    by (vm_compute; reflexivity).
  split; [exact Hlevel|].
  destruct (error_level_match_is_exact (Demo.record "error") "error"
              [Demo.record "ERROR"] [Demo.record "INFO"] Hlevel)
    as (Hskip & Hone & _); [discriminate|discriminate|].
  split; [exact Hskip|exact Hone].
Defined.

(** ** The account table *)

Section AccountTable.

Context {hours expire_aux : Type}.
Variable format_account_expiration : hours -> string * expire_aux * string.

Local Abbreviation row := (account_row format_account_expiration).

(** A row is never the empty string: it starts with a line break. *)
Lemma account_row_starts_with_newline (a : @AccountManager hours) :
  exists rest, row a = String "010"%char rest.
Proof. unfold account_row. eexists. reflexivity. Qed.

(** The loop appends the rows, in the order of the pool, to what was
    accumulated before. *)
Lemma accounts_rows_fold (accounts : list (string * @AccountManager hours))
    (start : string) :
  fold_left
    (fun accounts_rows '(account_id, account_manager) =>
       accounts_rows ++ row account_manager)
    accounts start
  = start ++ String.concat "" (map (fun kv => row (snd kv)) accounts).
Proof.
  revert start. induction accounts as [|[id a] accounts IH]; intros start.
  - cbn. now rewrite append_nil_r.
  - cbn [fold_left map snd]. rewrite IH, append_assoc. f_equal.
    destruct accounts; [cbn; now rewrite append_nil_r|reflexivity].
Qed.

Lemma accounts_rows_loop_concat (accounts : list (string * @AccountManager hours)) :
  accounts_rows_loop format_account_expiration accounts =
  String.concat "" (map (fun kv => row (snd kv)) accounts).
Proof. unfold accounts_rows_loop. now rewrite accounts_rows_fold. Qed.

Lemma accounts_rows_loop_truthy (accounts : list (string * @AccountManager hours)) :
  accounts <> [] ->
  Py.truthy (accounts_rows_loop format_account_expiration accounts) = true.
Proof.
  intros Hne. rewrite accounts_rows_loop_concat.
  destruct accounts as [|[id a] accounts]; [contradiction|].
  cbn [map snd]. destruct (account_row_starts_with_newline a) as [rest ->].
  destruct (map _ accounts); reflexivity.
Qed.

(** The body of the table is the concatenation of the row collection. *)
Lemma table_body_row_collection (accounts : list (string * @AccountManager hours)) :
  table_body (accounts_rows_loop format_account_expiration accounts) =
  String.concat "" (Spec.row_collection format_account_expiration accounts).
Proof.
  unfold table_body. destruct accounts as [|kv accounts]; [reflexivity|].
  rewrite accounts_rows_loop_truthy by discriminate.
  apply accounts_rows_loop_concat.
Qed.

(** C7.  The table of the view-model holds the rows of the row collection.
    For an empty pool the collection is the single placeholder row, so the
    table body is that row and not empty; for a non-empty pool the collection
    has one row per account, the row at each position being the row of the
    account at that position of the pool. *)
Theorem accounts_table_rows
    (basic : BasicConfig) (request : Request)
    (multi_account_mgr : list (string * @AccountManager hours))
    (log_buffer : list (gmap string string))
    (api_key path_prefix : string) :
  let data :=
    prepare_admin_template_data format_account_expiration basic request
      multi_account_mgr log_buffer api_key path_prefix in
  let rows := Spec.row_collection format_account_expiration multi_account_mgr in
  accounts_html data = accounts_table (String.concat "" rows)
  /\ (multi_account_mgr = [] ->
      rows = [placeholder_row]
      /\ length rows = 1
      /\ accounts_html data = accounts_table placeholder_row
      /\ exists before after, placeholder_row = before ++ "暂无账户" ++ after)
  /\ (multi_account_mgr <> [] ->
      length rows = length multi_account_mgr
      /\ (forall i id a, multi_account_mgr !! i = Some (id, a) ->
                         rows !! i = Some (row a))
      /\ accounts_html data =
         accounts_table
           (String.concat "" (map (fun kv => row (snd kv)) multi_account_mgr))).
Proof.
  intros data rows. subst data rows.
  unfold prepare_admin_template_data. cbn [accounts_html].
  rewrite table_body_row_collection.
  split; [reflexivity|]. split.
  - intros ->. do 3 (split; [reflexivity|]).
    exists (Py.lit "<tr><td colspan=`6` style=`text-align: center; color: #6b6b6b; padding: 24px;`>"),
      "</td></tr>".
    reflexivity.
  - intros Hne. destruct multi_account_mgr as [|kv accounts]; [contradiction|].
    cbn [Spec.row_collection]. split; [apply length_map|]. split; [|reflexivity].
    intros i id a Hi. rewrite list_lookup_fmap, Hi. reflexivity.
Qed.

End AccountTable.

(** * Further properties of the module *)

(** ** More on the base URL *)

Lemma rstrip_empty_iff (chars s : string) :
  Py.rstrip chars s = "" <-> Py.all_in chars s = true.
Proof.
  induction s as [|c s IH]; [easy|].
  rewrite rstrip_cons. cbn [Py.all_in].
  destruct (Py.rstrip chars s) as [|d r].
  - destruct (Py.char_in c chars).
    + rewrite andb_true_l. split; [intros _; now apply IH|reflexivity].
    + split; discriminate.
  - split; [discriminate|].
    intros H. apply andb_prop in H as [_ H]. apply IH in H. discriminate H.
Qed.



(** X1.  With no base URL configured and neither an x-forwarded-host nor a
    host header in the request, the host part of the result is the text
    "None": the absent header is formatted as it is. *)
Theorem base_url_without_host_header (basic : BasicConfig) (request : Request) :
  base_url basic = None \/ base_url basic = Some "" ->
  headers request !! "x-forwarded-host" = None ->
  headers request !! "host" = None ->
  get_base_url_from_request basic request =
  default (url_scheme request) (headers request !! "x-forwarded-proto")
  ++ "://None".
Proof.
  intros Hb Hfwd Hhost. rewrite (get_base_url_derived _ _ Hb).
  unfold Py.get. rewrite Hfwd, Hhost.
  destruct (headers request !! "x-forwarded-proto"); reflexivity.
Qed.

Lemma base_url_without_host_header_witness :
  get_base_url_from_request {| base_url := None |} Sample.bare_request
  = "http://None".
Proof.
  exact (base_url_without_host_header {| base_url := None |}
           Sample.bare_request (or_introl eq_refl) eq_refl eq_refl).
Defined.

(** X2.  A configured, non-empty base URL decides the result alone: the
    request, with its forwarded headers, is not consulted. *)
Theorem configured_base_url_ignores_request (basic : BasicConfig)
    (request request' : Request) (b : string) :
  base_url basic = Some b -> b <> "" ->
  get_base_url_from_request basic request =
  get_base_url_from_request basic request'.
Proof.
  intros Hb Hne. now rewrite !(get_base_url_configured _ _ _ Hb Hne).
Qed.

Lemma configured_base_url_ignores_request_witness :
  get_base_url_from_request {| base_url := Some "https://gw.example.org/" |}
    Demo.proxied_request
  = get_base_url_from_request {| base_url := Some "https://gw.example.org/" |}
      Sample.bare_request.
Proof.
  apply (configured_base_url_ignores_request
           {| base_url := Some "https://gw.example.org/" |}
           Demo.proxied_request Sample.bare_request
           "https://gw.example.org/" eq_refl).
  discriminate.
Defined.

(** X3.  A configured base URL resolves to the empty string exactly when it
    consists of "/" characters only; the request is not used as a fallback
    in that case. *)
Theorem configured_base_url_empty_iff_slashes (basic : BasicConfig)
    (request : Request) (b : string) :
  base_url basic = Some b -> b <> "" ->
  (get_base_url_from_request basic request = "" <-> Py.all_in "/" b = true).
Proof.
  intros Hb Hne. rewrite (get_base_url_configured _ _ _ Hb Hne).
  apply rstrip_empty_iff.
Qed.

Lemma configured_base_url_empty_iff_slashes_witness :
  get_base_url_from_request {| base_url := Some "//" |} Demo.proxied_request
  = "".
Proof.
  apply (configured_base_url_empty_iff_slashes {| base_url := Some "//" |}
           Demo.proxied_request "//" eq_refl); [discriminate|reflexivity].
Defined.

(** X4.  Resolution is stable: a non-empty result obtained from a configured
    base URL, configured in its turn, resolves to itself for any request. *)
Theorem resolved_base_url_is_fixed_point (basic : BasicConfig)
    (request request' : Request) (b : string) :
  base_url basic = Some b -> b <> "" ->
  get_base_url_from_request basic request <> "" ->
  get_base_url_from_request
    {| base_url := Some (get_base_url_from_request basic request) |} request'
  = get_base_url_from_request basic request.
Proof.
  intros Hb Hne Hres.
  rewrite (get_base_url_configured
             {| base_url := Some (get_base_url_from_request basic request) |}
             request' _ eq_refl Hres).
  rewrite (get_base_url_configured _ _ _ Hb Hne).
  apply rstrip_fixed. intros c. apply rstrip_last.
Qed.

Lemma resolved_base_url_is_fixed_point_witness :
  get_base_url_from_request {| base_url := Some "https://gw.example.org//" |}
    Demo.proxied_request = "https://gw.example.org"
  /\ get_base_url_from_request {| base_url := Some "https://gw.example.org" |}
       Sample.bare_request = "https://gw.example.org".
Proof.
  split; [reflexivity|].
  apply (resolved_base_url_is_fixed_point
           {| base_url := Some "https://gw.example.org//" |}
           Demo.proxied_request Sample.bare_request
           "https://gw.example.org//" eq_refl); discriminate.
Defined.

(** ** More on the endpoints *)

Lemma length_append (s t : string) :
  String.length (s ++ t) = String.length s + String.length t.
Proof.
  induction s as [|c s IH]; [reflexivity|].
  rewrite append_cons. cbn [String.length]. now rewrite IH.
Qed.

Lemma append_cancel_r (s s' u : string) : s ++ u = s' ++ u -> s = s'.
Proof.
  revert s'. induction s as [|c s IH]; intros [|c' s'] H.
  - reflexivity.
  - apply (f_equal String.length) in H.
    rewrite !length_append in H. cbn [String.length] in H. lia.
  - apply (f_equal String.length) in H.
    rewrite !length_append in H. cbn [String.length] in H. lia.
  - rewrite !append_cons in H. injection H as -> H. f_equal. now apply IH.
Qed.

Section Endpoints.

Context {hours expire_aux : Type}.
Variable format_account_expiration : hours -> string * expire_aux * string.
Variables (basic : BasicConfig) (request : Request).
Variable multi_account_mgr : list (string * @AccountManager hours).
Variable log_buffer : list (gmap string string).
Variable api_key : string.

Local Abbreviation data_for path_prefix :=
  (prepare_admin_template_data format_account_expiration basic request
     multi_account_mgr log_buffer api_key path_prefix).

(** The three endpoints for a non-empty prefix, whatever its last
    character. *)
Lemma endpoints_nonempty_prefix (path_prefix : string) :
  path_prefix <> "" ->
  api_base_url (data_for path_prefix) =
    current_url (data_for path_prefix) ++ "/" ++ Py.rstrip "/" path_prefix
  /\ api_base_v1 (data_for path_prefix) =
      current_url (data_for path_prefix) ++ "/" ++ path_prefix ++ "/v1"
  /\ api_endpoint (data_for path_prefix) =
      current_url (data_for path_prefix) ++ "/" ++ path_prefix
      ++ "/v1/chat/completions".
Proof.
  intros Hne. destruct path_prefix as [|c p]; [contradiction|].
  unfold prepare_admin_template_data.
  cbn [api_base_v1 api_base_url api_endpoint current_url Py.truthy].
  change (Py.truthy (String c p ++ "/")) with true. cbv iota.
  rewrite (rstrip_app_stripped "/" (String c p) "/" eq_refl).
  rewrite !append_assoc. repeat split.
Qed.

(** X6.  For every non-empty path prefix, the API base is the current URL,
    "/" and the prefix without its trailing slashes, while the versioned
    base is the current URL, "/", the prefix as given and "/v1", and the chat
    endpoint is the versioned base followed by "/chat/completions".  A
    prefix made of slashes only leaves an API base that ends with "/". *)
Theorem endpoints_for_any_prefix (path_prefix : string) :
  path_prefix <> "" ->
  api_base_url (data_for path_prefix) =
    current_url (data_for path_prefix) ++ "/" ++ Py.rstrip "/" path_prefix
  /\ api_base_v1 (data_for path_prefix) =
      current_url (data_for path_prefix) ++ "/" ++ path_prefix ++ "/v1"
  /\ api_endpoint (data_for path_prefix) =
      api_base_v1 (data_for path_prefix) ++ "/chat/completions"
  /\ (Py.all_in "/" path_prefix = true ->
      api_base_url (data_for path_prefix) =
      current_url (data_for path_prefix) ++ "/").
Proof.
  intros Hne.
  destruct (endpoints_nonempty_prefix path_prefix Hne) as (Hbase & Hv1 & Hchat).
  split; [exact Hbase|]. split; [exact Hv1|]. split.
  - rewrite Hchat, Hv1, !append_assoc. reflexivity.
  - intros Hall. rewrite Hbase. apply rstrip_empty_iff in Hall.
    now rewrite Hall.
Qed.

(** X7.  The versioned base is the API base followed by "/v1" exactly when
    the path prefix does not end with "/". *)
Theorem v1_extends_base_iff_no_trailing_slash (path_prefix : string) :
  api_base_v1 (data_for path_prefix) = api_base_url (data_for path_prefix) ++ "/v1"
  <-> Py.last_char path_prefix <> Some "/"%char.
Proof.
  destruct (decide (path_prefix = "")) as [->|Hne].
  - split; [discriminate|]. intros _.
    unfold prepare_admin_template_data.
    cbn [api_base_v1 api_base_url Py.truthy]. reflexivity.
  - destruct (endpoints_nonempty_prefix path_prefix Hne) as (-> & -> & _).
    rewrite !append_assoc. split.
    + intros Heq Hlast.
      do 2 apply String.app_inj in Heq. apply append_cancel_r in Heq.
      rewrite Heq in Hlast. apply rstrip_last in Hlast. discriminate Hlast.
    + intros Hlast. rewrite rstrip_fixed; [reflexivity|].
      intros c Hc. apply char_in_slash. congruence.
Qed.

End Endpoints.

Lemma endpoints_for_any_prefix_witness :
  let data :=
    prepare_admin_template_data Demo.format_hours {| base_url := None |}
      Demo.proxied_request [] [] "" "api/" in
  api_base_url data = "https://api.example.com/api"
  /\ api_base_v1 data = "https://api.example.com/api//v1"
  /\ api_endpoint data = "https://api.example.com/api//v1/chat/completions".
Proof.
  assert (Hne : "api/" <> "") by discriminate.
  destruct (endpoints_for_any_prefix Demo.format_hours {| base_url := None |}
              Demo.proxied_request [] [] "" "api/" Hne)
    as (Hbase & Hv1 & Hchat & _).
  cbv zeta. split; [exact Hbase|]. split; [exact Hv1|].
  rewrite Hchat, Hv1. reflexivity.
Defined.

(** ** More on the error tally *)

Lemma is_error_record_true (log : gmap string string) :
  Spec.is_error_record log = true <->
  log !! "level" = Some "ERROR" \/ log !! "level" = Some "CRITICAL".
Proof.
  unfold Spec.is_error_record. destruct (log !! "level") as [level|].
  - rewrite orb_true_iff, !bool_decide_eq_true. split.
    + intros [->| ->]; auto.
    + intros [[= ->]|[= ->]]; auto.
  - split; [discriminate|]. intros [H|H]; discriminate H.
Qed.

(** X10.  The error count lies between 0 and the number of records of the
    buffer. *)
Theorem error_count_bounds (log_buffer : list (gmap string string)) :
  (0 <= error_count_loop log_buffer <= Z.of_nat (length log_buffer))%Z.
Proof.
  rewrite error_count_loop_filter.
  pose proof (List.filter_length_le Spec.is_error_record log_buffer). lia.
Qed.

(** X11.  The tally of two buffers put end to end is the sum of their
    tallies. *)
Theorem error_count_app (before after : list (gmap string string)) :
  error_count_loop (before ++ after) =
  (error_count_loop before + error_count_loop after)%Z.
Proof.
  rewrite !error_count_loop_filter, List.filter_app, List.length_app. lia.
Qed.

(** X12.  The tally does not depend on the order of the records. *)
Theorem error_count_permutation (logs logs' : list (gmap string string)) :
  Permutation logs logs' ->
  error_count_loop logs = error_count_loop logs'.
Proof.
  intros Hperm. rewrite !error_count_loop_filter. f_equal.
  induction Hperm as [|log l l' _ IH|log log' l|l l' l'' _ IH _ IH'].
  - reflexivity.
  - cbn [List.filter]. destruct (Spec.is_error_record log); cbn [length]; lia.
  - cbn [List.filter].
    destruct (Spec.is_error_record log), (Spec.is_error_record log');
      reflexivity.
  - congruence.
Qed.

Lemma error_count_permutation_witness :
  error_count_loop [Demo.record "ERROR"; Demo.no_level; Demo.record "INFO"]
  = error_count_loop [Demo.record "INFO"; Demo.record "ERROR"; Demo.no_level].
Proof.
  apply error_count_permutation. apply Permutation_sym.
  apply (Permutation_cons_append
           [Demo.record "ERROR"; Demo.no_level] (Demo.record "INFO")).
Defined.

Section ErrorAlert.

Context {hours expire_aux : Type}.
Variable format_account_expiration : hours -> string * expire_aux * string.

(** X9.  The error banner is present exactly when some record of the buffer
    has level "ERROR" or "CRITICAL", and a banner that is present carries
    the error count in decimal. *)
Theorem error_alert_iff_error_record
    (basic : BasicConfig) (request : Request)
    (multi_account_mgr : list (string * @AccountManager hours))
    (log_buffer : list (gmap string string))
    (api_key path_prefix : string) :
  let data :=
    prepare_admin_template_data format_account_expiration basic request
      multi_account_mgr log_buffer api_key path_prefix in
  (error_alert data <> "" <->
   exists log, In log log_buffer /\
     (log !! "level" = Some "ERROR" \/ log !! "level" = Some "CRITICAL"))
  /\ (error_alert data <> "" ->
      exists before after,
        error_alert data =
        before ++ Py.str_int (error_count_loop log_buffer) ++ after).
Proof.
  intros data. subst data. unfold prepare_admin_template_data.
  cbn [error_alert]. rewrite Z.gtb_ltb.
  destruct (Z.ltb_spec 0 (error_count_loop log_buffer)) as [Hpos|Hzero].
  - split; [|intros _; eexists _, _; reflexivity].
    split; [intros _|discriminate].
    rewrite error_count_loop_filter in Hpos.
    destruct (List.filter Spec.is_error_record log_buffer) as [|log l] eqn:E;
      [cbn in Hpos; lia|].
    assert (Hin : In log (List.filter Spec.is_error_record log_buffer))
      by (rewrite E; now left).
    apply List.filter_In in Hin as [Hin Herr].
    exists log. split; [exact Hin|]. now apply is_error_record_true.
  - split; [|intros []; reflexivity].
    split; [intros []; reflexivity|].
    intros (log & Hin & Hlevel). apply is_error_record_true in Hlevel.
    assert (Hf : In log (List.filter Spec.is_error_record log_buffer))
      by (apply List.filter_In; now split).
    rewrite error_count_loop_filter in Hzero.
    destruct (List.filter Spec.is_error_record log_buffer);
      [destruct Hf|cbn in Hzero; lia].
Qed.

End ErrorAlert.

(** ** More on the status decision *)

Lemma render_delete_not_disable_delete (id : string) :
  Spec.render_actions [Spec.Delete] id <>
  Spec.render_actions [Spec.Disable; Spec.Delete] id.
Proof. rewrite render_delete, render_disable_delete. discriminate. Qed.

Lemma render_enable_not_disable (id : string) :
  Spec.render_actions [Spec.Enable; Spec.Delete] id <>
  Spec.render_actions [Spec.Disable; Spec.Delete] id.
Proof. rewrite render_enable_delete, render_disable_delete. discriminate. Qed.

(** Case analysis on the tests of the chain, in their order. *)
Ltac chain_cases a :=
  destruct (is_expired (config a)) eqn:Hexpired;
    [|destruct (disabled (config a)) eqn:Hdisabled;
      [|destruct (Z.eqb_spec (fst (get_cooldown_info a)) (-1)) as [Hbanned|Hbanned];
        [|destruct (Z.ltb_spec 0 (fst (get_cooldown_info a))) as [Hcooling|Hcooling];
          [|destruct (is_available a) eqn:Havailable]]]].

Ltac status_fields :=
  cbn [Spec.view_row status_text status_color dot_color row_opacity
       action_buttons expire_display config_obj Spec.label Spec.text_colour
       Spec.indicator_colour Spec.opacity Spec.permitted_actions Spec.hex
       Spec.css].

Section StatusDecisionMore.

Context {hours expire_aux : Type}.
Variable format_account_expiration : hours -> string * expire_aux * string.

Local Abbreviation status_of a :=
  (_get_account_status format_account_expiration a).

(** X13.  Once an account is expired or disabled, the cooldown, the
    availability verdict and the conversation count play no part: two
    managers with the same configuration get the same status. *)
Theorem terminal_state_ignores_operational_signals (a b : @AccountManager hours) :
  config a = config b ->
  is_expired (config a) = true \/ disabled (config a) = true ->
  status_of a = status_of b.
Proof.
  intros Hconfig Hterminal.
  rewrite !get_account_status_view, !classify_chain. unfold Spec.view_row.
  rewrite <- Hconfig.
  destruct (is_expired (config a)); [reflexivity|].
  destruct Hterminal as [H|H]; [discriminate H|]. rewrite H. reflexivity.
Qed.

(** X14.  An account that is disabled and not expired is shown as manually
    disabled -- label "手动禁用", neutral gray text and dot, reduced opacity,
    actions enable and delete -- whatever its cooldown and availability. *)
Theorem manually_disabled_row (a : @AccountManager hours) :
  is_expired (config a) = false ->
  disabled (config a) = true ->
  Spec.classify a = Spec.ManuallyDisabled
  /\ status_text (status_of a) = "手动禁用"
  /\ status_color (status_of a) = "#9e9e9e"
  /\ dot_color (status_of a) = "#9e9e9e"
  /\ row_opacity (status_of a) = "0.5"
  /\ action_buttons (status_of a) =
       Spec.render_actions [Spec.Enable; Spec.Delete] (account_id (config a)).
Proof.
  intros Hexp Hoff.
  assert (Hst : Spec.classify a = Spec.ManuallyDisabled)
    by (rewrite classify_chain, Hexp, Hoff; reflexivity).
  rewrite get_account_status_view, Hst. repeat split.
Qed.

(** X15.  An account that is neither expired nor disabled and whose cooldown
    is -1 is shown as banned: the label is the cooldown reason as it is, text
    and dot are danger red, the opacity is reduced and the actions are enable
    and delete, whatever its availability. *)
Theorem banned_row (a : @AccountManager hours) (cooldown_reason : string) :
  is_expired (config a) = false ->
  disabled (config a) = false ->
  get_cooldown_info a = ((-1)%Z, cooldown_reason) ->
  Spec.classify a = Spec.Banned
  /\ status_text (status_of a) = cooldown_reason
  /\ status_color (status_of a) = "#f44336"
  /\ dot_color (status_of a) = "#f44336"
  /\ row_opacity (status_of a) = "0.5"
  /\ action_buttons (status_of a) =
       Spec.render_actions [Spec.Enable; Spec.Delete] (account_id (config a)).
Proof.
  intros Hexp Hoff Hinfo.
  assert (Hst : Spec.classify a = Spec.Banned)
    by (rewrite classify_chain, Hexp, Hoff, Hinfo; reflexivity).
  rewrite get_account_status_view, Hst. status_fields. rewrite Hinfo.
  repeat split.
Qed.

(** X16.  A cooldown that is zero or negative, other than -1, counts as no
    cooldown: for accounts that are neither expired nor disabled, the status
    depends on the configuration and the availability only, neither on the
    value of such a cooldown nor on its reason. *)
Theorem nonpositive_cooldown_is_no_cooldown (a b : @AccountManager hours) :
  config a = config b ->
  is_available a = is_available b ->
  is_expired (config a) = false ->
  disabled (config a) = false ->
  (fst (get_cooldown_info a) <= 0)%Z -> fst (get_cooldown_info a) <> (-1)%Z ->
  (fst (get_cooldown_info b) <= 0)%Z -> fst (get_cooldown_info b) <> (-1)%Z ->
  status_of a = status_of b.
Proof.
  intros Hconfig Havail Hexp Hoff Ha Ha' Hb Hb'.
  assert (Hclass : forall c : @AccountManager hours,
             is_expired (config c) = false -> disabled (config c) = false ->
             (fst (get_cooldown_info c) <= 0)%Z ->
             fst (get_cooldown_info c) <> (-1)%Z ->
             Spec.classify c =
             if is_available c then Spec.Healthy else Spec.Unhealthy).
  { intros c He Hd Hle Hne. rewrite classify_chain, He, Hd.
    destruct (Z.eqb_spec (fst (get_cooldown_info c)) (-1)); [contradiction|].
    destruct (Z.ltb_spec 0 (fst (get_cooldown_info c))); [lia|reflexivity]. }
  rewrite !get_account_status_view.
  rewrite (Hclass a Hexp Hoff Ha Ha').
  rewrite (Hclass b) by (rewrite <- ?Hconfig; assumption).
  unfold Spec.view_row. rewrite <- Hconfig, <- Havail.
  destruct (is_available a); reflexivity.
Qed.

(** X17.  A row is dimmed (opacity 0.5) exactly when the account is expired,
    disabled or banned; every other row has opacity 1. *)
Theorem dimmed_iff_terminal (a : @AccountManager hours) :
  (row_opacity (status_of a) = "0.5" <->
   is_expired (config a) = true \/ disabled (config a) = true
   \/ fst (get_cooldown_info a) = (-1)%Z)
  /\ (row_opacity (status_of a) = "0.5" \/ row_opacity (status_of a) = "1").
Proof.
  rewrite get_account_status_view, classify_chain.
  chain_cases a; rewrite ?(proj2 (Z.eqb_eq _ _)) by assumption;
    rewrite ?(proj2 (Z.eqb_neq _ _)) by assumption;
    status_fields; (split; [split|]); auto; try discriminate;
    intros [H|[H|H]]; congruence.
Qed.

(** X18.  The three action markups are told apart by their text, so the
    markup returned shows which actions are on offer: delete alone exactly
    for an expired account; enable and delete exactly for an account that is
    not expired and is disabled or banned; disable and delete exactly on the
    rows of opacity 1. *)
Theorem action_markup_decided (a : @AccountManager hours) :
  let id := account_id (config a) in
  (action_buttons (status_of a) = Spec.render_actions [Spec.Delete] id <->
   is_expired (config a) = true)
  /\ (action_buttons (status_of a) =
        Spec.render_actions [Spec.Enable; Spec.Delete] id <->
      is_expired (config a) = false
      /\ (disabled (config a) = true \/ fst (get_cooldown_info a) = (-1)%Z))
  /\ (action_buttons (status_of a) =
        Spec.render_actions [Spec.Disable; Spec.Delete] id <->
      row_opacity (status_of a) = "1").
Proof.
  intros id. subst id.
  pose proof (render_delete_not_enable_delete (account_id (config a))) as Hde.
  pose proof (render_delete_not_disable_delete (account_id (config a))) as Hdd.
  pose proof (render_enable_not_disable (account_id (config a))) as Hed.
  rewrite get_account_status_view, classify_chain.
  chain_cases a; rewrite ?(proj2 (Z.eqb_eq _ _)) by assumption;
    rewrite ?(proj2 (Z.eqb_neq _ _)) by assumption;
    status_fields;
    (split; [|split]); (split; [intros H|intros H]);
    try reflexivity; try discriminate; try congruence; try tauto;
    try (exfalso; auto; fail);
    try (symmetry in H; exfalso; auto; fail);
    try (destruct H as [H1 [H2|H2]]; congruence).
Qed.

(** Whatever state is chosen, the status keeps the remaining-time
    display of the formatter and the configuration of the manager: a dimmed
    or cooling row still shows the true remaining time. *)
Lemma expire_display_always_surfaced (a : @AccountManager hours) :
  expire_display (status_of a) =
    snd (format_account_expiration (get_remaining_hours (config a)))
  /\ config_obj (status_of a) = config a.
Proof. rewrite get_account_status_view. split; reflexivity. Qed.

(** X19.  Text and dot have different colours in two cases only, both at
    the end of the chain: the account is available with expiration text
    "正常", or it is not available. *)
Theorem two_tone_cases (a : @AccountManager hours) :
  let text :=
    fst (fst (format_account_expiration (get_remaining_hours (config a)))) in
  status_color (status_of a) <> dot_color (status_of a) <->
  is_expired (config a) = false
  /\ disabled (config a) = false
  /\ fst (get_cooldown_info a) <> (-1)%Z
  /\ (fst (get_cooldown_info a) <= 0)%Z
  /\ (is_available a = false \/ text = "正常").
Proof.
  intros text. subst text.
  rewrite get_account_status_view, classify_chain.
  chain_cases a; rewrite ?(proj2 (Z.eqb_eq _ _)) by assumption;
    rewrite ?(proj2 (Z.eqb_neq _ _)) by assumption;
    status_fields;
    try (split; [intros Hne; exfalso; now apply Hne
                |intros (H1 & H2 & H3 & H4 & H5); congruence || lia]).
  - destruct (String.eqb_spec
                (fst (fst (format_account_expiration
                             (get_remaining_hours (config a))))) "正常")
      as [Hnormal|Hnormal].
    + split; [intros _; repeat split; auto|discriminate].
    + destruct (String.eqb
                  (fst (fst (format_account_expiration
                               (get_remaining_hours (config a))))) "即将过期");
        (split; [intros Hne; exfalso; now apply Hne
                |intros (_ & _ & _ & _ & [H|H]); congruence]).
  - split; [intros _; repeat split; auto|discriminate].
Qed.

End StatusDecisionMore.

Lemma terminal_state_ignores_operational_signals_witness :
  config Sample.expired_cooling = config Sample.expired_idle
  /\ get_cooldown_info Sample.expired_cooling
     <> get_cooldown_info Sample.expired_idle
  /\ _get_account_status Demo.format_hours Sample.expired_cooling
     = _get_account_status Demo.format_hours Sample.expired_idle.
Proof.
  split; [reflexivity|]. split; [discriminate|].
  exact (terminal_state_ignores_operational_signals Demo.format_hours
           Sample.expired_cooling Sample.expired_idle eq_refl
           (or_introl eq_refl)).
Defined.

Lemma manually_disabled_row_witness :
  is_expired (config Sample.switched_off) = false
  /\ disabled (config Sample.switched_off) = true
  /\ get_cooldown_info Sample.switched_off = (30%Z, "rate limited")
  /\ status_text (_get_account_status Demo.format_hours Sample.switched_off)
     = "手动禁用".
Proof.
  destruct (manually_disabled_row Demo.format_hours Sample.switched_off
              eq_refl eq_refl) as (_ & Htext & _).
  do 3 (split; [reflexivity|]). exact Htext.
Defined.

Lemma banned_row_witness :
  get_cooldown_info Sample.banned = ((-1)%Z, "banned upstream")
  /\ is_available Sample.banned = true
  /\ status_text (_get_account_status Demo.format_hours Sample.banned)
     = "banned upstream"
  /\ row_opacity (_get_account_status Demo.format_hours Sample.banned) = "0.5".
Proof.
  destruct (banned_row Demo.format_hours Sample.banned "banned upstream"
              eq_refl eq_refl eq_refl) as (_ & Htext & _ & _ & Hdim & _).
  do 2 (split; [reflexivity|]). split; [exact Htext|exact Hdim].
Defined.

Lemma nonpositive_cooldown_is_no_cooldown_witness :
  get_cooldown_info Sample.negative_cooldown = ((-5)%Z, "clock skew")
  /\ get_cooldown_info Sample.no_cooldown = (0%Z, "")
  /\ _get_account_status Demo.format_hours Sample.negative_cooldown
     = _get_account_status Demo.format_hours Sample.no_cooldown.
Proof.
  do 2 (split; [reflexivity|]).
  apply (nonpositive_cooldown_is_no_cooldown Demo.format_hours
           Sample.negative_cooldown Sample.no_cooldown);
    try reflexivity; cbn; lia.
Defined.

(** ** More on the account table and the banners *)

Section AccountTableMore.

Context {hours expire_aux : Type}.
Variable format_account_expiration : hours -> string * expire_aux * string.

Local Abbreviation rows_of accounts :=
  (accounts_rows_loop format_account_expiration accounts).

Lemma rows_of_managers (accounts : list (string * @AccountManager hours)) :
  rows_of accounts =
  String.concat ""
    (map (account_row format_account_expiration) (map snd accounts)).
Proof. rewrite accounts_rows_loop_concat, List.map_map. reflexivity. Qed.

(** X20.  The rows are built from the account managers alone: the keys under
    which the pool stores them are not used, the identifier shown being the
    one of the manager's configuration. *)
Theorem rows_ignore_pool_keys
    (accounts accounts' : list (string * @AccountManager hours)) :
  map snd accounts = map snd accounts' ->
  rows_of accounts = rows_of accounts'.
Proof. intros Hsame. now rewrite !rows_of_managers, Hsame. Qed.

(** X21.  The rows of two pools put end to end are the rows of the first
    followed by the rows of the second. *)
Theorem rows_app (accounts accounts' : list (string * @AccountManager hours)) :
  rows_of (accounts ++ accounts') = rows_of accounts ++ rows_of accounts'.
Proof.
  unfold accounts_rows_loop at 1. rewrite List.fold_left_app.
  fold (accounts_rows_loop format_account_expiration accounts).
  rewrite accounts_rows_fold, <- accounts_rows_loop_concat. reflexivity.
Qed.

(** X22.  The placeholder row is the body of the table exactly when the pool
    is empty. *)
Theorem placeholder_iff_empty_pool
    (accounts : list (string * @AccountManager hours)) :
  table_body (rows_of accounts) = placeholder_row <-> accounts = [].
Proof.
  split; [|intros ->; reflexivity].
  destruct accounts as [|[id a] accounts]; [reflexivity|].
  unfold table_body. rewrite accounts_rows_loop_truthy by discriminate.
  rewrite accounts_rows_loop_concat. cbn [map snd].
  destruct (account_row_starts_with_newline format_account_expiration a)
    as [rest ->].
  destruct (map _ accounts); discriminate.
Qed.

(** X23.  An empty expiration time is shown like an absent one: the two rows
    are the same text. *)
Theorem expires_at_empty_is_unset
    (id : string) (off expired : bool) (remaining : hours)
    (cooldown : Z * string) (available : bool) (count : Z) :
  let manager expires :=
    {| config :=
         {| account_id := id;
            disabled := off;
            expires_at := expires;
            get_remaining_hours := remaining;
            is_expired := expired |};
       get_cooldown_info := cooldown;
       is_available := available;
       conversation_count := count |} in
  account_row format_account_expiration (manager (Some "")) =
  account_row format_account_expiration (manager None).
Proof.
  intros manager. subst manager. unfold account_row.
  rewrite !get_account_status_view. reflexivity.
Qed.

(** X8.  The security banner tells whether an API key is configured and
    nothing else: two calls have the same banner exactly when their keys are
    both empty or both non-empty. *)
Theorem api_key_banner_shows_presence_only
    (basic basic' : BasicConfig) (request request' : Request)
    (accounts accounts' : list (string * @AccountManager hours))
    (logs logs' : list (gmap string string))
    (api_key api_key' path_prefix path_prefix' : string) :
  api_key_status
    (prepare_admin_template_data format_account_expiration basic request
       accounts logs api_key path_prefix)
  = api_key_status
      (prepare_admin_template_data format_account_expiration basic' request'
         accounts' logs' api_key' path_prefix')
  <-> (api_key = "" <-> api_key' = "").
Proof.
  unfold prepare_admin_template_data. cbn [api_key_status].
  destruct api_key, api_key'; cbn [Py.truthy]; split.
  - tauto.
  - reflexivity.
  - intros H. vm_compute in H. discriminate H.
  - intros [H _]. discriminate (H eq_refl).
  - intros H. vm_compute in H. discriminate H.
  - intros [_ H]. discriminate (H eq_refl).
  - intros _. split; discriminate.
  - reflexivity.
Qed.

End AccountTableMore.

Lemma rows_ignore_pool_keys_witness :
  accounts_rows_loop Demo.format_hours
    [("acc-2", Demo.cooling); ("acc-3", Demo.healthy)]
  = accounts_rows_loop Demo.format_hours
      [("first", Demo.cooling); ("second", Demo.healthy)].
Proof.
  apply rows_ignore_pool_keys. reflexivity.
Defined.
